(** * Data models of the food-delivery server ([data_models/models.py])

    A shallow embedding of the record types of [models.py], of their
    [to_dict] conversions, of the construction-time defaults of [User] and
    [Order], of the [OrderStatus] table and of [APIError], together with
    the properties the specification states about them.

    Python values are embedded as follows.
    - [str] is [string], [int] is [Z], [float] is an IEEE-754 value
      ([spec_float]); [Optional[T]] is [option T], [None] being Python's
      [None].
    - A [Dict[str, Any]] is a finite map [gmap string value]: a Python dict
      has one value per key and two dicts are equal when they have the same
      keys with equal values, whatever the insertion order.
    - A method is a function of the receiver and of the outside world (the
      entropy source and the clock), returning its result together with the
      receiver and the world as it leaves them. *)

From Stdlib Require Import ZArith String Ascii List Strings.Byte Lia.
From Stdlib Require Import Floats.SpecFloat.
From stdpp Require Import base option list strings gmap fin_maps.

Local Open Scope Z_scope.
Local Open Scope string_scope.

(** ** Python values *)

(** [datetime.datetime]: an instant, in microseconds since the epoch, and
    the attached [tzinfo], given by its offset from UTC in seconds; a naive
    datetime has no [tzinfo]. *)
Record datetime := mk_datetime {
  dt_instant : Z;
  dt_tzinfo : option Z
}.

(** [timezone.utc] is the fixed zone of offset zero. *)
Definition timezone_utc : Z := 0.

(** The values that occur in the mappings [to_dict] builds. *)
#[warnings="-register-all"]
Inductive value : Type :=
| VNone
| VStr (s : string)
| VInt (n : Z)
| VFloat (f : spec_float)
| VDatetime (d : datetime)
| VList (l : list value)
| VDict (d : gmap string value).

Abbreviation dict := (gmap string value).

(** An [Optional[...]] field stored under a key: [None] is stored as such. *)
Definition of_optional {A} (inj : A -> value) (o : option A) : value :=
  match o with
  | Some a => inj a
  | None => VNone
  end.

Definition str_list (l : list string) : value := VList (map VStr l).

(** An argument of a constructor that has a default value. *)
Inductive arg (A : Type) : Type :=
| Omitted
| Passed (a : A).
Arguments Omitted {A}.
Arguments Passed {A} a.

Definition arg_or {A} (default : A) (a : arg A) : A :=
  match a with
  | Omitted => default
  | Passed x => x
  end.

(** An optional argument counts as absent when it is omitted or [None]. *)
Definition absent {A} (a : arg (option A)) : bool :=
  match arg_or None a with
  | None => true
  | Some _ => false
  end.

(** ** The outside world and methods *)

(** What construction reads from the operating system: the bytes the random
    source delivers, one after the other, and the successive readings of the
    clock (microseconds since the epoch). The two positions count what has
    been consumed so far. *)
Record World := mk_World {
  entropy : nat -> byte;
  entropy_pos : nat;
  clock : nat -> Z;
  clock_pos : nat
}.

(** [os.urandom(n)] *)
Definition os_urandom (n : nat) (w : World) : list byte * World :=
  (map (entropy w) (seq (entropy_pos w) n),
   mk_World (entropy w) (entropy_pos w + n) (clock w) (clock_pos w)).

(** [datetime.now(tz)]: one reading of the clock, tagged with the zone. *)
Definition datetime_now (tz : Z) (w : World) : datetime * World :=
  (mk_datetime (clock w (clock_pos w)) (Some tz),
   mk_World (entropy w) (entropy_pos w) (clock w) (S (clock_pos w))).

(** A method with receiver of type [S] and result of type [A]. *)
Definition method (S A : Type) : Type := S -> World -> A * S * World.

Definition result {S A} (r : A * S * World) : A := r.1.1.
Definition receiver {S A} (r : A * S * World) : S := r.1.2.
Definition world {S A} (r : A * S * World) : World := r.2.

#[global] Instance method_ret {S} : MRet (method S) :=
  fun A (a : A) self w => (a, self, w).

#[global] Instance method_bind {S} : MBind (method S) :=
  fun A B (k : A -> method S B) (m : method S A) self w =>
    let '(a, self', w') := m self w in k a self' w'.

(** Reading [self], assigning to it, and calling into the world. *)
Definition get_self {S} : method S S := fun self w => (self, self, w).
Definition set_self {S} (self' : S) : method S unit := fun _ w => (tt, self', w).
Definition sys {S A} (f : World -> A * World) : method S A :=
  fun self w => let '(a, w') := f w in (a, self, w').

(** Two calls of the same method in sequence, on the same receiver. *)
Definition twice {S A} (m : method S A) : method S (A * A) :=
  a ← m; b ← m; mret (a, b).

(** [m] is free of effects: two calls in sequence on the same receiver
    return equal results and leave the receiver and the world as they were,
    and the result is the same in every world. *)
Definition effect_free {S A} (m : method S A) : Prop :=
  forall (self : S) (w : World),
    (result (twice m self w)).1 = (result (twice m self w)).2
    /\ receiver (twice m self w) = self
    /\ world (twice m self w) = w
    /\ forall w' : World, result (m self w') = result (m self w).

(** ** The [uuid] library, as far as [str(uuid.uuid4())] goes *)

Module uuid.

(** A [UUID] object holds its 128-bit value as one integer. *)
Record UUID := mk_UUID { int : Z }.

(** [int.from_bytes(bytes, "big")] *)
Definition int_from_bytes (bs : list byte) : Z :=
  fold_left (fun acc b => acc * 256 + Z.of_N (Byte.to_N b)) bs 0.

(** [UUID(bytes=..., version=...)]: the variant bits are set to RFC 4122
    and the version number is written in its four bits. *)
Definition UUID_init (bytes : list byte) (version : option Z) : UUID :=
  let int := int_from_bytes bytes in
  match version with
  | None => mk_UUID int
  | Some version =>
      let int := Z.land int (Z.lnot (Z.shiftl 0xc000 48)) in
      let int := Z.lor int (Z.shiftl 0x8000 48) in
      let int := Z.land int (Z.lnot (Z.shiftl 0xf000 64)) in
      let int := Z.lor int (Z.shiftl version 76) in
      mk_UUID int
  end.

(** [uuid.uuid4()]: sixteen bytes from the random source, version 4. *)
Definition uuid4 (w : World) : UUID * World :=
  let '(bytes, w') := os_urandom 16 w in
  (UUID_init bytes (Some 4), w').

Definition hex_digit (d : Z) : ascii :=
  match d with
  | 0 => "0" | 1 => "1" | 2 => "2" | 3 => "3"
  | 4 => "4" | 5 => "5" | 6 => "6" | 7 => "7"
  | 8 => "8" | 9 => "9" | 10 => "a" | 11 => "b"
  | 12 => "c" | 13 => "d" | 14 => "e" | _ => "f"
  end%char.

(** The digits of a natural number in base sixteen, most significant
    first; [fuel] bounds the number of digits. *)
Fixpoint hex_loop (fuel : nat) (n : Z) (acc : string) : string :=
  match fuel with
  | O => acc
  | S fuel' =>
      let acc' := String (hex_digit (n mod 16)) acc in
      if (n / 16 =? 0)%Z then acc' else hex_loop fuel' (n / 16) acc'
  end.

(** ["%x" % n] for [0 <= n] *)
Definition format_x (n : Z) : string :=
  hex_loop (S (Z.to_nat (Z.log2 n))) n "".

Fixpoint zeros (k : nat) : string :=
  match k with
  | O => ""
  | S k' => String "0" (zeros k')
  end.

(** ["%032x" % n]: padded with zeros on the left to 32 characters. *)
Definition format_032x (n : Z) : string :=
  let s := format_x n in
  zeros (32 - String.length s) +:+ s.

(** [s[i:j]] for [0 <= i <= j], and [s[i:]] *)
Definition slice (i j : nat) (s : string) : string := substring i (j - i) s.
Definition slice_from (i : nat) (s : string) : string :=
  substring i (String.length s - i) s.

(** [str(u)]: the hexadecimal digits in groups of 8, 4, 4, 4 and 12. *)
Definition UUID_str (u : UUID) : string :=
  let hex := format_032x (int u) in
  slice 0 8 hex +:+ "-" +:+ slice 8 12 hex +:+ "-" +:+ slice 12 16 hex
    +:+ "-" +:+ slice 16 20 hex +:+ "-" +:+ slice_from 20 hex.

(** The canonical textual form of a 128-bit identifier: 36 characters,
    hyphens at positions 8, 13, 18 and 23, lower-case hexadecimal digits
    everywhere else. *)
Definition is_hex_lower (c : ascii) : bool :=
  let n := nat_of_ascii c in
  ((48 <=? n) && (n <=? 57) || (97 <=? n) && (n <=? 102))%nat.

Fixpoint all_hex (s : string) : bool :=
  match s with
  | EmptyString => true
  | String c s' => is_hex_lower c && all_hex s'
  end.

Definition is_hyphen_position (i : nat) : bool :=
  ((i =? 8) || (i =? 13) || (i =? 18) || (i =? 23))%nat.

Fixpoint canonical_from (i : nat) (s : string) : bool :=
  match s with
  | EmptyString => (i =? 36)%nat
  | String c s' =>
      (if is_hyphen_position i then Ascii.eqb c "-" else is_hex_lower c)
      && canonical_from (S i) s'
  end.

Definition is_canonical (s : string) : bool := canonical_from 0 s.

End uuid.

(** ** Helpers for the methods below *)

(** A dict display [{k1: v1, ..., kn: vn}]: the entries are stored from
    left to right, a later one replacing an earlier one with the same key. *)
Definition py_dict (entries : list (string * value)) : dict :=
  fold_left (fun d kv => <[kv.1 := kv.2]> d) entries ∅.

(** Calling [m] on each object of a list, first to last; the objects come
    back as the calls leave them. *)
Fixpoint call_each {S A} (m : method S A) (objs : list S) (w : World)
  : list A * list S * World :=
  match objs with
  | [] => ([], [], w)
  | o :: objs' =>
      let '(a, o', w1) := m o w in
      let '(rest, objs'', w2) := call_each m objs' w1 in
      (a :: rest, o' :: objs'', w2)
  end.

(** [google.cloud.firestore.GeoPoint]: a plain object with two attributes.
    It defines neither [__bool__] nor [__len__], so it is always true in a
    condition. *)
Record GeoPoint := mk_GeoPoint {
  latitude : spec_float;
  longitude : spec_float
}.

Definition GeoPoint_bool (_ : GeoPoint) : bool := true.

(** The truth value of an [Optional[...]] in a condition: [None] is false,
    and the value decides otherwise; a string is true unless empty. *)
Definition truth {A} (bool_of : A -> bool) (o : option A) : bool :=
  match o with
  | Some a => bool_of a
  | None => false
  end.

Definition str_bool (s : string) : bool := negb (String.eqb s "").

(** ** The records *)

Module Restaurant.

Record t := mk {
  id : string;
  name : string;
  cuisine : string;
  address : string;
  rating : spec_float;
  deliveryFee : spec_float;
  estimatedDeliveryTime : Z;
  subname : option string;
  coords : option GeoPoint
}.

Definition to_dict : method t dict :=
  self ← get_self;
  let data := py_dict [
    ("id", VStr (id self));
    ("name", VStr (name self));
    ("cuisine", VStr (cuisine self));
    ("address", VStr (address self));
    ("rating", VFloat (rating self));
    ("deliveryFee", VFloat (deliveryFee self));
    ("estimatedDeliveryTime", VInt (estimatedDeliveryTime self))
  ] in
  let data :=
    if truth str_bool (subname self)
    then <["subname" := of_optional VStr (subname self)]> data
    else data in
  let data :=
    match coords self with
    | Some point =>
        if GeoPoint_bool point
        then <["coords" := VDict (py_dict [
                 ("latitude", VFloat (latitude point));
                 ("longitude", VFloat (longitude point))])]> data
        else data
    | None => data
    end in
  mret data.

End Restaurant.

Module MenuItem.

Record t := mk {
  id : string;
  name : string;
  description : string;
  price : spec_float
}.

Definition to_dict : method t dict :=
  self ← get_self;
  mret (py_dict [
    ("id", VStr (id self));
    ("name", VStr (name self));
    ("description", VStr (description self));
    ("price", VFloat (price self))
  ]).

End MenuItem.

Module User.

Record t := mk {
  id : string;
  email : string;
  name : string;
  order_history : option (list string)
}.

Definition set_order_history (v : option (list string)) (self : t) : t :=
  mk (id self) (email self) (name self) v.

Definition __post_init__ : method t unit :=
  self ← get_self;
  match order_history self with
  | None => set_self (set_order_history (Some []) self)
  | Some _ => mret tt
  end.

(** The constructor the [dataclass] decorator generates: the fields are
    assigned, then [__post_init__] runs. *)
Definition new (id email name : string)
    (order_history : arg (option (list string))) (w : World) : t * World :=
  let self := mk id email name (arg_or None order_history) in
  let r := __post_init__ self w in
  (receiver r, world r).

Definition to_dict : method t dict :=
  self ← get_self;
  mret (py_dict [
    ("id", VStr (id self));
    ("email", VStr (email self));
    ("name", VStr (name self));
    ("orderHistory", of_optional str_list (order_history self))
  ]).

End User.

Module OrderItem.

Record t := mk {
  menu_item_id : string
}.

Definition to_dict : method t dict :=
  self ← get_self;
  mret (py_dict [
    ("menuItemId", VStr (menu_item_id self))
  ]).

End OrderItem.

Module OrderCreationData.

Record t := mk {
  restaurant_id : string;
  user_id : string;
  item_ids : list string;
  delivery_address : string
}.

Definition to_dict : method t dict :=
  self ← get_self;
  mret (py_dict [
    ("restaurant", VStr (restaurant_id self));
    ("user", VStr (user_id self));
    ("items", str_list (item_ids self));
    ("deliveryAddress", VStr (delivery_address self))
  ]).

End OrderCreationData.

Module Order.

Record t := mk {
  restaurant : string;
  user : string;
  items : list OrderItem.t;
  delivery_address : string;
  status : string;
  order_id : option string;
  created_at : option datetime;
  updated_at : option datetime
}.

Definition set_items (v : list OrderItem.t) (self : t) : t :=
  mk (restaurant self) (user self) v (delivery_address self)
     (status self) (order_id self) (created_at self) (updated_at self).

Definition set_order_id (v : option string) (self : t) : t :=
  mk (restaurant self) (user self) (items self) (delivery_address self)
     (status self) v (created_at self) (updated_at self).

Definition set_created_at (v : option datetime) (self : t) : t :=
  mk (restaurant self) (user self) (items self) (delivery_address self)
     (status self) (order_id self) v (updated_at self).

Definition set_updated_at (v : option datetime) (self : t) : t :=
  mk (restaurant self) (user self) (items self) (delivery_address self)
     (status self) (order_id self) (created_at self) v.

Definition __post_init__ : method t unit :=
  self ← get_self;
  match order_id self with
  | None =>
      u ← sys uuid.uuid4;
      set_self (set_order_id (Some (uuid.UUID_str u)) self)
  | Some _ => mret tt
  end;;
  self ← get_self;
  match created_at self with
  | None =>
      now ← sys (datetime_now timezone_utc);
      set_self (set_created_at (Some now) self)
  | Some _ => mret tt
  end;;
  self ← get_self;
  match updated_at self with
  | None =>
      now ← sys (datetime_now timezone_utc);
      set_self (set_updated_at (Some now) self)
  | Some _ => mret tt
  end.

(** The generated constructor: [status] defaults to ["pending"], the last
    three fields to [None]; then [__post_init__] runs. *)
Definition new (restaurant user : string) (items : list OrderItem.t)
    (delivery_address : string) (status : arg string)
    (order_id : arg (option string))
    (created_at updated_at : arg (option datetime))
    (w : World) : t * World :=
  let self :=
    mk restaurant user items delivery_address (arg_or "pending" status)
       (arg_or None order_id) (arg_or None created_at)
       (arg_or None updated_at) in
  let r := __post_init__ self w in
  (receiver r, world r).

Definition to_dict : method t dict :=
  self ← get_self;
  '(dicts, items') ← sys (call_each OrderItem.to_dict (items self));
  set_self (set_items items' self);;
  self ← get_self;
  let data := py_dict [
    ("restaurant", VStr (restaurant self));
    ("user", VStr (user self));
    ("items", VList (map VDict dicts));
    ("deliveryAddress", VStr (delivery_address self));
    ("status", VStr (status self));
    ("createdAt", of_optional VDatetime (created_at self));
    ("updatedAt", of_optional VDatetime (updated_at self))
  ] in
  mret data.

End Order.

Module OrderStatus.

Definition PENDING := "pending".
Definition CONFIRMED := "confirmed".
Definition PREPARING := "preparing".
Definition READY := "ready".
Definition OUT_FOR_DELIVERY := "out_for_delivery".
Definition DELIVERED := "delivered".
Definition CANCELLED := "cancelled".

Definition get_valid_statuses : list string :=
  [ PENDING; CONFIRMED; PREPARING; READY; OUT_FOR_DELIVERY; DELIVERED;
    CANCELLED ].

End OrderStatus.

(** ** [APIError] and the exception base class *)

Module BaseException.

(** [repr] of a string: single quotes, unless the string holds a single
    quote and no double quote; the quote, the backslash and the control
    characters are escaped. Characters beyond ASCII are left as they are,
    as [repr] does for the printable ones. *)
Fixpoint contains (c : ascii) (s : string) : bool :=
  match s with
  | EmptyString => false
  | String c' s' => Ascii.eqb c c' || contains c s'
  end.

Definition squote : ascii := "'".
Definition dquote : ascii := ascii_of_nat 34.
Definition backslash : ascii := "\".

Definition repr_char (quote c : ascii) : string :=
  let n := nat_of_ascii c in
  if Ascii.eqb c quote || Ascii.eqb c backslash then String backslash (String c "")
  else if (n =? 9)%nat then String backslash "t"
  else if (n =? 10)%nat then String backslash "n"
  else if (n =? 13)%nat then String backslash "r"
  else if (n <? 32)%nat || (n =? 127)%nat then
    String backslash (String "x" (String (uuid.hex_digit (Z.of_nat n / 16))
      (String (uuid.hex_digit (Z.of_nat n mod 16)) "")))
  else String c "".

Fixpoint repr_chars (quote : ascii) (s : string) : string :=
  match s with
  | EmptyString => ""
  | String c s' => repr_char quote c +:+ repr_chars quote s'
  end.

Definition repr_str (s : string) : string :=
  let quote :=
    if contains squote s && negb (contains dquote s) then dquote else squote in
  String quote (repr_chars quote s +:+ String quote "").

(** [repr] of a tuple of strings *)
Definition repr_tuple (items : list string) : string :=
  match items with
  | [a] => "(" +:+ repr_str a +:+ ",)"
  | _ => "(" +:+ String.concat ", " (map repr_str items) +:+ ")"
  end.

(** [BaseException.__init__(self, *args)] keeps its arguments. *)
Definition __init__ (args : list string) : list string := args.

(** [BaseException.__str__]: nothing for no argument, the argument's own
    [str] for one, the [str] of the tuple otherwise. *)
Definition __str__ (args : list string) : string :=
  match args with
  | [] => ""
  | [a] => a
  | _ => repr_tuple args
  end.

End BaseException.

Module APIError.

(** The attributes [__init__] sets, and the [args] of the base class. *)
Record t := mk {
  message : string;
  status_code : Z;
  args : list string
}.

Definition __init__ (message : string) (status_code : arg Z) : t :=
  let self_message := message in
  let self_status_code := arg_or 400 status_code in
  mk self_message self_status_code (BaseException.__init__ [self_message]).

(** [str(e)]: [APIError] does not override [__str__]. *)
Definition __str__ (self : t) : string := BaseException.__str__ (args self).

End APIError.

(** ** What a mapping keeps of a record *)

(** The subname as [Restaurant.to_dict] stores it: an empty subname is left
    out like an absent one. *)
Definition emitted_subname (r : Restaurant.t) : option string :=
  match Restaurant.subname r with
  | Some s => if String.eqb s "" then None else Some s
  | None => None
  end.

(** ** Reading the text of an identifier back *)

(** The value of a lower-case hexadecimal digit. *)
Definition hex_value (c : ascii) : Z :=
  let n := Z.of_nat (nat_of_ascii c) in
  if (n <? 58)%Z then n - 48 else n - 87.

(** The number a text of hexadecimal digits denotes, hyphens skipped. *)
Fixpoint text_value (acc : Z) (s : string) : Z :=
  match s with
  | EmptyString => acc
  | String c s' =>
      if Ascii.eqb c "-" then text_value acc s'
      else text_value (acc * 16 + hex_value c) s'
  end.

(** The [k] low hexadecimal digits of [n], most significant first. *)
Fixpoint fixed_hex (k : nat) (n : Z) (acc : string) : string :=
  match k with
  | O => acc
  | S k' => fixed_hex k' (n / 16) (String (uuid.hex_digit (n mod 16)) acc)
  end.

(** ** Sample inputs *)

(** A world whose random source delivers the bytes 3, 20, 37, ... and whose
    clock starts at 1700000000 seconds and advances by one microsecond per
    reading. *)
Definition sample_world : World :=
  mk_World
    (fun i => match Byte.of_nat (17 * i + 3) with Some b => b | None => x00 end)
    0
    (fun i => 1700000000000000 + Z.of_nat i)
    0.

(** The restaurant of the specification's examples, at latitude 12.5 and
    longitude -7.25. *)
Definition sample_restaurant : Restaurant.t :=
  Restaurant.mk "r1" "Trattoria" "italian" "1 Main St"
    (S754_finite false 9 (-1)) (S754_finite false 5 (-1)) 30
    (Some "Downtown")
    (Some (mk_GeoPoint (S754_finite false 25 (-1)) (S754_finite true 29 (-2)))).

(** * Properties *)

(** The key set of a mapping built by successive stores. *)
Ltac dom_of_inserts :=
  unfold py_dict; simpl; rewrite ?dom_insert_L, ?dom_empty_L; set_solver.

(** ** The model on sample inputs *)

Example sample_uuid4_text :
  uuid.UUID_str (uuid.uuid4 sample_world).1 =
  "03142536-4758-497a-8b9c-adbecfe0f100".
Proof. vm_compute. reflexivity. Qed.

Example sample_format_x :
  uuid.format_x 255 = "ff" /\ uuid.format_x 4096 = "1000"
  /\ uuid.format_032x 255 = "000000000000000000000000000000ff".
Proof. repeat split. Qed.

Example sample_order_fields :
  let o := (Order.new "r1" "u1" [] "123 Main St" Omitted Omitted
              (Passed (Some (mk_datetime 5 None))) Omitted sample_world).1 in
  Order.order_id o = Some "03142536-4758-497a-8b9c-adbecfe0f100"
  /\ Order.created_at o = Some (mk_datetime 5 None)
  /\ Order.updated_at o = Some (mk_datetime 1700000000000000 (Some 0)).
Proof. vm_compute. repeat split. Qed.

Example sample_restaurant_coords :
  result (Restaurant.to_dict sample_restaurant sample_world) !! "coords" =
  Some (VDict (py_dict [("latitude", VFloat (S754_finite false 25 (-1)));
                        ("longitude", VFloat (S754_finite true 29 (-2)))]))
  /\ result (Restaurant.to_dict sample_restaurant sample_world) !! "subname" =
     Some (VStr "Downtown").
Proof. split; reflexivity. Qed.

Example sample_exception_str :
  BaseException.__str__ [] = ""
  /\ BaseException.__str__ ["Not found"] = "Not found"
  /\ BaseException.__str__ ["a"; "it's"] =
     String "(" (String "'" (String "a" (String "'" (String "," (String " "
       (String BaseException.dquote (String "i" (String "t" (String "'"
         (String "s" (String BaseException.dquote ")"))))))))))).
Proof. repeat split. Qed.

(** ** What the methods compute *)

(** Every [to_dict] hands back its receiver and the world as it found them;
    the equations below give the mapping each one returns. *)


Lemma Restaurant_to_dict_pure (r : Restaurant.t) (w w' : World) :
  Restaurant.to_dict r w = (result (Restaurant.to_dict r w'), r, w).
Proof. reflexivity. Qed.

Lemma MenuItem_to_dict_pure (m : MenuItem.t) (w w' : World) :
  MenuItem.to_dict m w = (result (MenuItem.to_dict m w'), m, w).
Proof. reflexivity. Qed.

Lemma User_to_dict_pure (u : User.t) (w w' : World) :
  User.to_dict u w = (result (User.to_dict u w'), u, w).
Proof. reflexivity. Qed.

Lemma OrderItem_to_dict_pure (i : OrderItem.t) (w w' : World) :
  OrderItem.to_dict i w = (result (OrderItem.to_dict i w'), i, w).
Proof. reflexivity. Qed.

Lemma OrderCreationData_to_dict_pure (d : OrderCreationData.t) (w w' : World) :
  OrderCreationData.to_dict d w = (result (OrderCreationData.to_dict d w'), d, w).
Proof. reflexivity. Qed.

(** The comprehension over the items of an order: one mapping per item, in
    the order of the list, the items and the world untouched. *)
Lemma call_each_OrderItem_to_dict (its : list OrderItem.t) (w w' : World) :
  call_each OrderItem.to_dict its w =
  (map (fun i => result (OrderItem.to_dict i w')) its, its, w).
Proof.
  induction its as [|i its IH]; simpl.
  - reflexivity.
  - rewrite IH. reflexivity.
Qed.

Lemma Order_set_items_id (o : Order.t) : Order.set_items (Order.items o) o = o.
Proof. destruct o; reflexivity. Qed.

Lemma Order_to_dict_eq (o : Order.t) (w : World) :
  Order.to_dict o w =
  (py_dict [
     ("restaurant", VStr (Order.restaurant o));
     ("user", VStr (Order.user o));
     ("items",
      VList (map (fun i => VDict (result (OrderItem.to_dict i w))) (Order.items o)));
     ("deliveryAddress", VStr (Order.delivery_address o));
     ("status", VStr (Order.status o));
     ("createdAt", of_optional VDatetime (Order.created_at o));
     ("updatedAt", of_optional VDatetime (Order.updated_at o))
   ], o, w).
Proof.
  unfold Order.to_dict, mbind, method_bind, get_self, sys, set_self, mret, method_ret.
  rewrite (call_each_OrderItem_to_dict (Order.items o) w w).
  rewrite Order_set_items_id, map_map. destruct o; reflexivity.
Qed.

Lemma Order_to_dict_pure (o : Order.t) (w w' : World) :
  Order.to_dict o w = (result (Order.to_dict o w'), o, w).
Proof. rewrite (Order_to_dict_eq o w), (Order_to_dict_eq o w'). reflexivity. Qed.


(** ** The text of a fresh identifier *)

Lemma hex_digit_is_hex (d : Z) : uuid.is_hex_lower (uuid.hex_digit d) = true.
Proof.
  destruct d as [|p|p]; [reflexivity| |reflexivity].
  repeat (destruct p as [p|p|]; try reflexivity).
Qed.

Lemma length_append (s1 s2 : string) :
  String.length (s1 +:+ s2) = (String.length s1 + String.length s2)%nat.
Proof. induction s1 as [|c s1 IH]; simpl; [reflexivity | rewrite IH; reflexivity]. Qed.

Lemma all_hex_append (s1 s2 : string) :
  uuid.all_hex s1 = true -> uuid.all_hex s2 = true ->
  uuid.all_hex (s1 +:+ s2) = true.
Proof.
  intros H1 H2. induction s1 as [|c s1 IH]; simpl in *; [exact H2|].
  apply andb_true_iff in H1 as [Hc H1]. rewrite Hc, IH by exact H1. reflexivity.
Qed.

Lemma length_zeros (k : nat) : String.length (uuid.zeros k) = k.
Proof. induction k; simpl; congruence. Qed.

Lemma all_hex_zeros (k : nat) : uuid.all_hex (uuid.zeros k) = true.
Proof. induction k; simpl; [reflexivity | exact IHk]. Qed.

Lemma hex_loop_all_hex (fuel : nat) (n : Z) (acc : string) :
  uuid.all_hex acc = true -> uuid.all_hex (uuid.hex_loop fuel n acc) = true.
Proof.
  revert n acc. induction fuel as [|fuel IH]; intros n acc Hacc; simpl.
  - exact Hacc.
  - assert (H : uuid.all_hex (String (uuid.hex_digit (n mod 16)) acc) = true).
    { simpl. rewrite hex_digit_is_hex, Hacc. reflexivity. }
    destruct (n / 16 =? 0)%Z; [exact H | apply IH, H].
Qed.

(** A number below [16^k] has at most [k] digits, whatever the fuel. *)
Lemma hex_loop_length (fuel k : nat) (n : Z) (acc : string) :
  (1 <= k)%nat -> 0 <= n < 16 ^ Z.of_nat k ->
  (String.length (uuid.hex_loop fuel n acc) <= k + String.length acc)%nat.
Proof.
  revert k n acc. induction fuel as [|fuel IH]; intros k n acc Hk Hn; simpl.
  - lia.
  - destruct (Z.eqb_spec (n / 16) 0) as [Hq|Hq]; simpl; [lia|].
    destruct k as [|k]; [lia|].
    assert (Hpow : 16 ^ Z.of_nat (S k) = 16 * 16 ^ Z.of_nat k).
    { rewrite Nat2Z.inj_succ, Z.pow_succ_r by lia. reflexivity. }
    assert (Hdiv : 0 <= n / 16 < 16 ^ Z.of_nat k).
    { split; [apply Z.div_pos; lia|].
      apply Z.div_lt_upper_bound; lia. }
    destruct k as [|k].
    { simpl in Hdiv. lia. }
    specialize (IH (S k) (n / 16) (String (uuid.hex_digit (n mod 16)) acc)).
    simpl String.length in IH. lia.
Qed.

Lemma format_032x_length (n : Z) :
  0 <= n < 2 ^ 128 -> String.length (uuid.format_032x n) = 32%nat.
Proof.
  intros Hn. unfold uuid.format_032x, uuid.format_x.
  assert (H : (String.length (uuid.hex_loop (S (Z.to_nat (Z.log2 n))) n "")
               <= 32 + 0)%nat).
  { apply (hex_loop_length _ 32 n ""); [lia|].
    change (16 ^ Z.of_nat 32) with (2 ^ 128). exact Hn. }
  rewrite length_append, length_zeros.
  set (len := String.length _) in *. lia.
Qed.

Lemma format_032x_all_hex (n : Z) : uuid.all_hex (uuid.format_032x n) = true.
Proof.
  unfold uuid.format_032x, uuid.format_x.
  apply all_hex_append; [apply all_hex_zeros | apply hex_loop_all_hex; reflexivity].
Qed.

(** Thirty-two hexadecimal digits, grouped, are in canonical form. *)
Lemma grouping_is_canonical (hex : string) :
  String.length hex = 32%nat -> uuid.all_hex hex = true ->
  uuid.is_canonical
    (uuid.slice 0 8 hex +:+ "-" +:+ uuid.slice 8 12 hex +:+ "-" +:+
     uuid.slice 12 16 hex +:+ "-" +:+ uuid.slice 16 20 hex +:+ "-" +:+
     uuid.slice_from 20 hex) = true.
Proof.
  intros Hlen Hall.
  do 32 (destruct hex as [|? hex]; [discriminate Hlen|]).
  destruct hex; [|discriminate Hlen]. clear Hlen.
  cbn [uuid.all_hex] in Hall.
  repeat (apply andb_true_iff in Hall as [? Hall]).
  unfold uuid.is_canonical, uuid.slice, uuid.slice_from.
  cbn [substring String.length Nat.sub]. cbv [append].
  cbn [uuid.canonical_from uuid.is_hyphen_position Nat.eqb orb].
  repeat match goal with
         | H : uuid.is_hex_lower _ = true |- _ => rewrite H; clear H
         end.
  reflexivity.
Qed.

(** ** The value of a fresh identifier fits in 128 bits *)

Lemma bits_above_bound (x n i : Z) :
  0 <= x < 2 ^ n -> n <= i -> Z.testbit x i = false.
Proof.
  intros [H0 Hx] Hi.
  destruct (Z.eq_dec x 0) as [->|Hne]; [apply Z.bits_0|].
  apply Z.bits_above_log2; [exact H0|].
  assert (Z.log2 x < n) by (apply Z.log2_lt_pow2; lia). lia.
Qed.

Lemma bound_of_bits (x n : Z) :
  0 <= n -> 0 <= x -> (forall i, n <= i -> Z.testbit x i = false) -> x < 2 ^ n.
Proof.
  intros Hn H0 Hbits.
  assert (E : x mod 2 ^ n = x).
  { apply Z.bits_inj'. intros i Hi.
    destruct (Z.lt_ge_cases i n) as [Hlt|Hge].
    - apply Z.mod_pow2_bits_low; exact Hlt.
    - rewrite Z.mod_pow2_bits_high by lia. symmetry; apply Hbits; exact Hge. }
  rewrite <- E. apply Z.mod_pos_bound. apply Z.pow_pos_nonneg; lia.
Qed.

Lemma int_from_bytes_bound (bs : list byte) :
  0 <= uuid.int_from_bytes bs < 256 ^ Z.of_nat (length bs).
Proof.
  unfold uuid.int_from_bytes.
  assert (G : forall acc k, 0 <= acc < 256 ^ k -> 0 <= k ->
            0 <= fold_left (fun acc b => acc * 256 + Z.of_N (Byte.to_N b)) bs acc
              < 256 ^ (k + Z.of_nat (length bs))).
  { induction bs as [|b bs IH]; intros acc k Hacc Hk; simpl length.
    - simpl. rewrite Z.add_0_r. exact Hacc.
    - cbn [fold_left]. rewrite Nat2Z.inj_succ.
      replace (k + Z.succ (Z.of_nat (length bs)))
        with ((k + 1) + Z.of_nat (length bs)) by lia.
      apply IH; [|lia].
      rewrite Z.pow_add_r by lia. change (256 ^ 1) with 256.
      pose proof (Byte.to_N_bounded b) as Hb.
      assert (0 <= Z.of_N (Byte.to_N b) < 256) by lia.
      nia. }
  apply (G 0 0); [simpl; lia | lia].
Qed.

Lemma uuid4_int_bound (w : World) : 0 <= uuid.int (uuid.uuid4 w).1 < 2 ^ 128.
Proof.
  unfold uuid.uuid4, os_urandom; cbn [fst uuid.UUID_init uuid.int].
  set (bytes := map (entropy w) (seq (entropy_pos w) 16)).
  pose proof (int_from_bytes_bound bytes) as Hb.
  assert (Hlen : length bytes = 16%nat)
    by (unfold bytes; rewrite length_map, length_seq; reflexivity).
  rewrite Hlen in Hb. change (256 ^ Z.of_nat 16) with (2 ^ 128) in Hb.
  set (x := uuid.int_from_bytes bytes) in *. clearbody x. clear bytes Hlen.
  assert (Hnonneg : forall a m, 0 <= a -> 0 <= Z.land a (Z.lnot m))
    by (intros a m Ha; apply Z.land_nonneg; left; exact Ha).
  split.
  - apply Z.lor_nonneg; split; [|vm_compute; discriminate].
    apply Hnonneg, Z.lor_nonneg; split; [|vm_compute; discriminate].
    apply Hnonneg, Hb.
  - apply bound_of_bits; [lia | |].
    + apply Z.lor_nonneg; split; [|vm_compute; discriminate].
      apply Hnonneg, Z.lor_nonneg; split; [|vm_compute; discriminate].
      apply Hnonneg, Hb.
    + intros i Hi.
      rewrite Z.lor_spec, Z.land_spec, Z.lor_spec, Z.land_spec.
      rewrite (bits_above_bound x 128 i Hb Hi).
      assert (Hvariant : 0 <= Z.shiftl 0x8000 48 < 2 ^ 128)
        by (vm_compute; split; [discriminate | reflexivity]).
      assert (Hversion : 0 <= Z.shiftl 4 76 < 2 ^ 128)
        by (vm_compute; split; [discriminate | reflexivity]).
      rewrite (bits_above_bound _ 128 i Hvariant Hi).
      rewrite (bits_above_bound _ 128 i Hversion Hi).
      reflexivity.
Qed.

(** What the generated constructor of [Order] leaves behind: each of the
    three optional fields keeps the value passed, or receives a default
    computed from the world at that point. *)
Lemma Order_new_eq r u its addr st oid ca ua (w : World) :
  let w1 := match arg_or None oid with None => (uuid.uuid4 w).2 | Some _ => w end in
  let w2 := match arg_or None ca with
            | None => (datetime_now timezone_utc w1).2 | Some _ => w1 end in
  let w3 := match arg_or None ua with
            | None => (datetime_now timezone_utc w2).2 | Some _ => w2 end in
  Order.new r u its addr st oid ca ua w =
  (Order.mk r u its addr (arg_or "pending" st)
     (Some (default (uuid.UUID_str (uuid.uuid4 w).1) (arg_or None oid)))
     (Some (default (datetime_now timezone_utc w1).1 (arg_or None ca)))
     (Some (default (datetime_now timezone_utc w2).1 (arg_or None ua))),
   w3).
Proof.
  unfold Order.new, Order.__post_init__, receiver, world, mbind, method_bind,
    get_self, set_self, sys, mret, method_ret.
  destruct (uuid.uuid4 w) as [u4 w4] eqn:E4.
  destruct oid as [|[s|]], ca as [|[c|]], ua as [|[a|]];
    cbn -[uuid.UUID_str uuid.uuid4]; try rewrite E4; reflexivity.
Qed.

(** C1: after construction the three optional fields of an [Order] are
    never [None]. Each one keeps the value passed, and receives its default
    only when it was absent: [order_id] the text of a version-4 identifier
    made from the next sixteen bytes of the random source, a 128-bit value
    written in canonical form; [created_at] and [updated_at] each one
    reading of the clock, in UTC, the second reading coming after the
    first. The random source advances by sixteen bytes exactly when
    [order_id] was absent, and the clock by one reading per absent
    timestamp. *)
Theorem Order_construction_defaults
    (r u : string) (its : list OrderItem.t) (addr : string) (st : arg string)
    (oid : arg (option string)) (ca ua : arg (option datetime)) (w : World) :
  (is_Some (Order.order_id (Order.new r u its addr st oid ca ua w).1)
   /\ is_Some (Order.created_at (Order.new r u its addr st oid ca ua w).1)
   /\ is_Some (Order.updated_at (Order.new r u its addr st oid ca ua w).1))
  /\ Order.order_id (Order.new r u its addr st oid ca ua w).1 =
       (if absent oid then Some (uuid.UUID_str (uuid.uuid4 w).1)
        else arg_or None oid)
  /\ ((uuid.uuid4 w).1 =
        uuid.UUID_init (map (entropy w) (seq (entropy_pos w) 16)) (Some 4)
      /\ 0 <= uuid.int (uuid.uuid4 w).1 < 2 ^ 128
      /\ uuid.is_canonical (uuid.UUID_str (uuid.uuid4 w).1) = true)
  /\ Order.created_at (Order.new r u its addr st oid ca ua w).1 =
       (if absent ca
        then Some (mk_datetime (clock w (clock_pos w)) (Some timezone_utc))
        else arg_or None ca)
  /\ Order.updated_at (Order.new r u its addr st oid ca ua w).1 =
       (if absent ua
        then Some (mk_datetime
                     (clock w (clock_pos w + (if absent ca then 1 else 0))%nat)
                     (Some timezone_utc))
        else arg_or None ua)
  /\ entropy_pos (Order.new r u its addr st oid ca ua w).2 =
       (entropy_pos w + (if absent oid then 16 else 0))%nat
  /\ clock_pos (Order.new r u its addr st oid ca ua w).2 =
       (clock_pos w + (if absent ca then 1 else 0)
                    + (if absent ua then 1 else 0))%nat
  /\ entropy (Order.new r u its addr st oid ca ua w).2 = entropy w
  /\ clock (Order.new r u its addr st oid ca ua w).2 = clock w.
Proof.
  rewrite Order_new_eq. cbv zeta.
  cbn [fst snd Order.order_id Order.created_at Order.updated_at].
  split; [repeat split; eexists; reflexivity|].
  split; [destruct oid as [|[s|]]; reflexivity|].
  split.
  { split; [reflexivity|]. split; [apply uuid4_int_bound|].
    apply grouping_is_canonical;
      [apply format_032x_length, uuid4_int_bound | apply format_032x_all_hex]. }
  unfold absent, uuid.uuid4, os_urandom, datetime_now.
  destruct (arg_or None oid) as [s|], (arg_or None ca) as [c|],
    (arg_or None ua) as [a|];
    cbn [fst snd default clock clock_pos entropy entropy_pos];
    rewrite ?Nat.add_0_r, ?Nat.add_1_r;
    repeat split; reflexivity.
Qed.

(** C6: [OrderStatus.get_valid_statuses()] is the list of the seven status
    strings in declaration order; it has length 7 and no element occurs
    twice. *)
Theorem get_valid_statuses_exact :
  OrderStatus.get_valid_statuses =
    ["pending"; "confirmed"; "preparing"; "ready"; "out_for_delivery";
     "delivered"; "cancelled"]
  ∧ length OrderStatus.get_valid_statuses = 7%nat
  ∧ NoDup OrderStatus.get_valid_statuses.
Proof.
  split; [reflexivity|]. split; [reflexivity|].
  unfold OrderStatus.get_valid_statuses.
  apply (bool_decide_unpack _). vm_compute. exact I.
Qed.

(** A method that hands back its receiver and the world, with a result that
    no world influences, is free of effects. *)
Lemma effect_free_intro {S A} (m : method S A) :
  (forall self w w', m self w = (result (m self w'), self, w)) ->
  effect_free m.
Proof.
  intros Hm self w.
  assert (E : exists d, m self w = (d, self, w) /\ d = result (m self w)).
  { exists (result (m self w)). split; [apply Hm | reflexivity]. }
  destruct E as (d & E & Hd).
  unfold twice, mbind, method_bind, mret, method_ret.
  rewrite E; cbn. rewrite E; cbn.
  split; [reflexivity|]. split; [reflexivity|]. split; [reflexivity|].
  intros w'. rewrite (Hm self w' w), E. reflexivity.
Qed.

(** C2: the mapping [Order.to_dict] returns has exactly the seven keys
    restaurant, user, items, deliveryAddress, status, createdAt and
    updatedAt, so the order id is not emitted; under [items] is the list of
    the mappings of the items, in the order of the items; under [createdAt]
    and [updatedAt] are the stored [created_at] and [updated_at]. *)
Theorem Order_to_dict_shape (o : Order.t) (w : World) :
  dom (result (Order.to_dict o w)) =
    ({["restaurant"; "user"; "items"; "deliveryAddress"; "status";
       "createdAt"; "updatedAt"]} : gset string)
  /\ ("order_id" ∉ dom (result (Order.to_dict o w)))
  /\ result (Order.to_dict o w) !! "restaurant" =
       Some (VStr (Order.restaurant o))
  /\ result (Order.to_dict o w) !! "user" = Some (VStr (Order.user o))
  /\ result (Order.to_dict o w) !! "deliveryAddress" =
       Some (VStr (Order.delivery_address o))
  /\ result (Order.to_dict o w) !! "status" = Some (VStr (Order.status o))
  /\ result (Order.to_dict o w) !! "items" =
       Some (VList (map (fun i => VDict (result (OrderItem.to_dict i w)))
                        (Order.items o)))
  /\ result (Order.to_dict o w) !! "createdAt" =
       Some (of_optional VDatetime (Order.created_at o))
  /\ result (Order.to_dict o w) !! "updatedAt" =
       Some (of_optional VDatetime (Order.updated_at o)).
Proof.
  rewrite Order_to_dict_eq. unfold result; cbn [fst].
  assert (Hdom : dom (py_dict [
     ("restaurant", VStr (Order.restaurant o));
     ("user", VStr (Order.user o));
     ("items",
      VList (map (fun i => VDict (OrderItem.to_dict i w).1.1) (Order.items o)));
     ("deliveryAddress", VStr (Order.delivery_address o));
     ("status", VStr (Order.status o));
     ("createdAt", of_optional VDatetime (Order.created_at o));
     ("updatedAt", of_optional VDatetime (Order.updated_at o))]) =
    ({["restaurant"; "user"; "items"; "deliveryAddress"; "status";
       "createdAt"; "updatedAt"]} : gset string)).
  { unfold py_dict; cbn [fold_left fst snd].
    rewrite !dom_insert_L, dom_empty_L. set_solver. }
  split; [exact Hdom|]. split; [rewrite Hdom; set_solver|].
  repeat split; reflexivity.
Qed.

(** C3: the mapping [Restaurant.to_dict] returns always holds the seven
    keys id, name, cuisine, address, rating, deliveryFee and
    estimatedDeliveryTime with the stored values; it holds [subname] exactly
    when the stored subname is a non-empty string, and then with that
    string; it holds [coords] exactly when a point is stored, and then with
    the mapping of its latitude and longitude; neither key is ever stored
    with [None], and there is no other key. *)
Theorem Restaurant_to_dict_shape (r : Restaurant.t) (w : World) :
  result (Restaurant.to_dict r w) !! "id" = Some (VStr (Restaurant.id r))
  /\ result (Restaurant.to_dict r w) !! "name" = Some (VStr (Restaurant.name r))
  /\ result (Restaurant.to_dict r w) !! "cuisine" =
       Some (VStr (Restaurant.cuisine r))
  /\ result (Restaurant.to_dict r w) !! "address" =
       Some (VStr (Restaurant.address r))
  /\ result (Restaurant.to_dict r w) !! "rating" =
       Some (VFloat (Restaurant.rating r))
  /\ result (Restaurant.to_dict r w) !! "deliveryFee" =
       Some (VFloat (Restaurant.deliveryFee r))
  /\ result (Restaurant.to_dict r w) !! "estimatedDeliveryTime" =
       Some (VInt (Restaurant.estimatedDeliveryTime r))
  /\ result (Restaurant.to_dict r w) !! "subname" =
       match Restaurant.subname r with
       | Some s => if String.eqb s "" then None else Some (VStr s)
       | None => None
       end
  /\ result (Restaurant.to_dict r w) !! "coords" =
       match Restaurant.coords r with
       | Some p => Some (VDict (py_dict [("latitude", VFloat (latitude p));
                                         ("longitude", VFloat (longitude p))]))
       | None => None
       end
  /\ result (Restaurant.to_dict r w) !! "subname" ≠ Some VNone
  /\ result (Restaurant.to_dict r w) !! "coords" ≠ Some VNone
  /\ dom (result (Restaurant.to_dict r w)) ⊆
       ({["id"; "name"; "cuisine"; "address"; "rating"; "deliveryFee";
          "estimatedDeliveryTime"; "subname"; "coords"]} : gset string).
Proof.
  destruct r as [i n c a ra df e sn co].
  destruct sn as [[|ch sn]|], co as [p|];
    (repeat (split; [reflexivity|]));
    (split; [discriminate|]); (split; [discriminate|]);
    unfold result, Restaurant.to_dict, mbind, method_bind, get_self, mret,
      method_ret, py_dict;
    cbn [fst snd fold_left truth str_bool negb String.eqb Ascii.eqb
         Restaurant.id Restaurant.name Restaurant.cuisine Restaurant.address
         Restaurant.rating Restaurant.deliveryFee Restaurant.subname
         Restaurant.estimatedDeliveryTime Restaurant.coords GeoPoint_bool];
    rewrite ?dom_insert_L, ?dom_empty_L; set_solver.
Qed.

(** C4: a [User] constructed with [order_history] omitted or passed as
    [None] holds the empty list, and [to_dict] stores the empty list under
    [orderHistory]; a list that is passed is kept; construction touches
    nothing in the world; whatever was passed, [orderHistory] is not [None]
    in the mapping of the constructed user. For every user the mapping has
    exactly the keys id, email, name and orderHistory, the last holding the
    [order_history] field. *)
Theorem User_order_history_default
    (id email name : string) (oh : arg (option (list string))) (w : World) :
  (arg_or None oh = None ->
     User.order_history (User.new id email name oh w).1 = Some []
     /\ result (User.to_dict (User.new id email name oh w).1 w) !! "orderHistory"
        = Some (VList []))
  /\ (forall l, arg_or None oh = Some l ->
        User.order_history (User.new id email name oh w).1 = Some l)
  /\ (User.new id email name oh w).2 = w
  /\ result (User.to_dict (User.new id email name oh w).1 w) !! "orderHistory"
       ≠ Some VNone
  /\ forall u : User.t,
       dom (result (User.to_dict u w)) =
         ({["id"; "email"; "name"; "orderHistory"]} : gset string)
       /\ result (User.to_dict u w) !! "id" = Some (VStr (User.id u))
       /\ result (User.to_dict u w) !! "email" = Some (VStr (User.email u))
       /\ result (User.to_dict u w) !! "name" = Some (VStr (User.name u))
       /\ result (User.to_dict u w) !! "orderHistory" =
            Some (of_optional str_list (User.order_history u)).
Proof.
  split; [|split; [|split; [|split]]].
  - intros H. destruct oh as [|[l|]]; try discriminate H; split; reflexivity.
  - intros l H. destruct oh as [|[l'|]]; try discriminate H.
    cbn in H. injection H as ->. reflexivity.
  - destruct oh as [|[l|]]; reflexivity.
  - destruct oh as [|[l|]]; discriminate.
  - intros [i e n h]. split; [|repeat split; reflexivity].
    unfold result, User.to_dict, mbind, method_bind, get_self, mret,
      method_ret, py_dict.
    cbn [fst snd fold_left]. rewrite !dom_insert_L, dom_empty_L. set_solver.
Qed.

(** C5: an order built from restaurant r1, user u1, the items m1 and m2
    and the address 123 Main St, everything else omitted, converts to the
    mapping with these values, the status pending, and under [createdAt]
    and [updatedAt] the two UTC readings of the clock taken at
    construction, neither of which is [None]. *)
Theorem Order_round_trip_scenario (w : World) :
  result (Order.to_dict
    (Order.new "r1" "u1" [OrderItem.mk "m1"; OrderItem.mk "m2"]
       "123 Main St" Omitted Omitted Omitted Omitted w).1
    (Order.new "r1" "u1" [OrderItem.mk "m1"; OrderItem.mk "m2"]
       "123 Main St" Omitted Omitted Omitted Omitted w).2)
  = py_dict [
      ("restaurant", VStr "r1");
      ("user", VStr "u1");
      ("items", VList [VDict (py_dict [("menuItemId", VStr "m1")]);
                       VDict (py_dict [("menuItemId", VStr "m2")])]);
      ("deliveryAddress", VStr "123 Main St");
      ("status", VStr "pending");
      ("createdAt",
       VDatetime (mk_datetime (clock w (clock_pos w)) (Some timezone_utc)));
      ("updatedAt",
       VDatetime (mk_datetime (clock w (S (clock_pos w))) (Some timezone_utc)))
    ]
  /\ VDatetime (mk_datetime (clock w (clock_pos w)) (Some timezone_utc)) ≠ VNone
  /\ VDatetime (mk_datetime (clock w (S (clock_pos w))) (Some timezone_utc))
       ≠ VNone.
Proof.
  rewrite Order_new_eq. cbv zeta. cbn [arg_or default fst snd].
  rewrite Order_to_dict_eq.
  split; [reflexivity|]. split; discriminate.
Qed.

(** C7: [APIError("Not found", 404)] reads back the message and 404; with
    the status code omitted it reads back 400; in general the message and
    the code passed can be read from the object. *)
Theorem APIError_attributes :
  APIError.message (APIError.__init__ "Not found" (Passed 404)) = "Not found"
  /\ APIError.status_code (APIError.__init__ "Not found" (Passed 404)) = 404
  /\ APIError.status_code (APIError.__init__ "Bad input" Omitted) = 400
  /\ (forall (m : string) (code : arg Z),
        APIError.message (APIError.__init__ m code) = m)
  /\ (forall (m : string) (c : Z),
        APIError.status_code (APIError.__init__ m (Passed c)) = c)
  /\ (forall m : string,
        APIError.status_code (APIError.__init__ m Omitted) = 400).
Proof. repeat split. Qed.

(** C8: for each of the record types, two calls of [to_dict] in sequence
    on the same record return equal mappings and leave the record and the
    world unchanged, and the mapping does not depend on the world. *)
Theorem to_dict_effect_free :
  effect_free Restaurant.to_dict
  /\ effect_free MenuItem.to_dict
  /\ effect_free User.to_dict
  /\ effect_free OrderItem.to_dict
  /\ effect_free OrderCreationData.to_dict
  /\ effect_free Order.to_dict.
Proof.
  split; [|split; [|split; [|split; [|split]]]]; apply effect_free_intro.
  - apply Restaurant_to_dict_pure.
  - apply MenuItem_to_dict_pure.
  - apply User_to_dict_pure.
  - apply OrderItem_to_dict_pure.
  - apply OrderCreationData_to_dict_pure.
  - apply Order_to_dict_pure.
Qed.

(** C9: an order constructed without a status has the status pending,
    which is [OrderStatus.PENDING] and a member of the list of valid
    statuses. *)
Theorem Order_default_status_valid
    (r u : string) (its : list OrderItem.t) (addr : string)
    (oid : arg (option string)) (ca ua : arg (option datetime)) (w : World) :
  Order.status (Order.new r u its addr Omitted oid ca ua w).1 = "pending"
  /\ Order.status (Order.new r u its addr Omitted oid ca ua w).1
     = OrderStatus.PENDING
  /\ Order.status (Order.new r u its addr Omitted oid ca ua w).1
     ∈ OrderStatus.get_valid_statuses.
Proof.
  rewrite Order_new_eq. cbv zeta. cbn [fst Order.status arg_or].
  split; [reflexivity|]. split; [reflexivity|].
  unfold OrderStatus.get_valid_statuses, OrderStatus.PENDING. apply list_elem_of_here.
Qed.

(** C10: the string form of an [APIError] is its message, whatever the
    status code. *)
Theorem APIError_str_is_message (m : string) (code : arg Z) :
  APIError.__str__ (APIError.__init__ m code) = m
  /\ APIError.args (APIError.__init__ m code) = [m].
Proof. split; reflexivity. Qed.


(** * Further properties of the conversions *)

(** ** Key sets of the unconditional mappings *)

(** The mapping of a [MenuItem] has exactly the keys id, name, description
    and price, each holding the stored field: no key is ever left out. *)
Theorem MenuItem_to_dict_shape (m : MenuItem.t) (w : World) :
  dom (result (MenuItem.to_dict m w)) =
    ({["id"; "name"; "description"; "price"]} : gset string)
  /\ result (MenuItem.to_dict m w) !! "id" = Some (VStr (MenuItem.id m))
  /\ result (MenuItem.to_dict m w) !! "name" = Some (VStr (MenuItem.name m))
  /\ result (MenuItem.to_dict m w) !! "description" =
       Some (VStr (MenuItem.description m))
  /\ result (MenuItem.to_dict m w) !! "price" =
       Some (VFloat (MenuItem.price m)).
Proof.
  destruct m as [i n d p]. split; [|repeat split; reflexivity].
  unfold result, MenuItem.to_dict, mbind, method_bind, get_self, mret,
    method_ret, py_dict.
  cbn [fst snd fold_left]. rewrite !dom_insert_L, dom_empty_L. set_solver.
Qed.

(** The mapping of an [OrderCreationData] has exactly the keys restaurant,
    user, items and deliveryAddress: the four fields under their new names,
    the item ids as a list of strings in the stored order, and none of the
    field names themselves. *)
Theorem OrderCreationData_to_dict_shape (d : OrderCreationData.t) (w : World) :
  dom (result (OrderCreationData.to_dict d w)) =
    ({["restaurant"; "user"; "items"; "deliveryAddress"]} : gset string)
  /\ result (OrderCreationData.to_dict d w) !! "restaurant" =
       Some (VStr (OrderCreationData.restaurant_id d))
  /\ result (OrderCreationData.to_dict d w) !! "user" =
       Some (VStr (OrderCreationData.user_id d))
  /\ result (OrderCreationData.to_dict d w) !! "items" =
       Some (VList (map VStr (OrderCreationData.item_ids d)))
  /\ result (OrderCreationData.to_dict d w) !! "deliveryAddress" =
       Some (VStr (OrderCreationData.delivery_address d))
  /\ result (OrderCreationData.to_dict d w) !! "restaurant_id" = None
  /\ result (OrderCreationData.to_dict d w) !! "user_id" = None
  /\ result (OrderCreationData.to_dict d w) !! "item_ids" = None
  /\ result (OrderCreationData.to_dict d w) !! "delivery_address" = None.
Proof.
  destruct d as [r u i a]. split; [|repeat split; reflexivity].
  unfold result, OrderCreationData.to_dict, mbind, method_bind, get_self, mret,
    method_ret, py_dict.
  cbn [fst snd fold_left]. rewrite !dom_insert_L, dom_empty_L. set_solver.
Qed.

(** ** What the mappings determine *)

Lemma VDict_eq_inv (d1 d2 : dict) : Some (VDict d1) = Some (VDict d2) -> d1 = d2.
Proof. intros H. injection H as H. exact H. Qed.

Lemma map_VStr_inj (l1 l2 : list string) : map VStr l1 = map VStr l2 -> l1 = l2.
Proof.
  revert l2. induction l1 as [|a l1 IH]; intros [|b l2] H;
    try discriminate H; [reflexivity|].
  cbn in H. injection H as -> H. rewrite (IH _ H). reflexivity.
Qed.

(** Two menu items, two order items or two order requests with the same
    mapping are the same record: the mapping loses nothing. *)
Theorem to_dict_injective_plain :
  (forall (m1 m2 : MenuItem.t) (w1 w2 : World),
     result (MenuItem.to_dict m1 w1) = result (MenuItem.to_dict m2 w2) ->
     m1 = m2)
  /\ (forall (i1 i2 : OrderItem.t) (w1 w2 : World),
       result (OrderItem.to_dict i1 w1) = result (OrderItem.to_dict i2 w2) ->
       i1 = i2)
  /\ (forall (d1 d2 : OrderCreationData.t) (w1 w2 : World),
       result (OrderCreationData.to_dict d1 w1)
       = result (OrderCreationData.to_dict d2 w2) ->
       d1 = d2).
Proof.
  split; [|split].
  - intros [i1 n1 d1 p1] [i2 n2 d2 p2] w1 w2 H.
    assert (Some (VStr i1) = Some (VStr i2)) as Hi
      by exact (f_equal (fun d : dict => d !! "id") H).
    assert (Some (VStr n1) = Some (VStr n2)) as Hn
      by exact (f_equal (fun d : dict => d !! "name") H).
    assert (Some (VStr d1) = Some (VStr d2)) as Hd
      by exact (f_equal (fun d : dict => d !! "description") H).
    assert (Some (VFloat p1) = Some (VFloat p2)) as Hp
      by exact (f_equal (fun d : dict => d !! "price") H).
    congruence.
  - intros [m1] [m2] w1 w2 H.
    assert (Some (VStr m1) = Some (VStr m2)) as Hm
      by exact (f_equal (fun d : dict => d !! "menuItemId") H).
    congruence.
  - intros [r1 u1 i1 a1] [r2 u2 i2 a2] w1 w2 H.
    assert (Some (VStr r1) = Some (VStr r2)) as Hr
      by exact (f_equal (fun d : dict => d !! "restaurant") H).
    assert (Some (VStr u1) = Some (VStr u2)) as Hu
      by exact (f_equal (fun d : dict => d !! "user") H).
    assert (Some (VList (map VStr i1)) = Some (VList (map VStr i2))) as Hi
      by exact (f_equal (fun d : dict => d !! "items") H).
    assert (Some (VStr a1) = Some (VStr a2)) as Ha
      by exact (f_equal (fun d : dict => d !! "deliveryAddress") H).
    injection Hi as Hi. apply map_VStr_inj in Hi. congruence.
Qed.

(** Two users with the same mapping are the same record; in particular the
    mapping tells a user whose history is [None] from one whose history is
    the empty list. *)
Theorem User_to_dict_injective (u1 u2 : User.t) (w1 w2 : World) :
  (result (User.to_dict u1 w1) = result (User.to_dict u2 w2) <-> u1 = u2)
  /\ result (User.to_dict (User.mk (User.id u1) (User.email u1)
                                  (User.name u1) None) w1)
     ≠ result (User.to_dict (User.mk (User.id u1) (User.email u1)
                                     (User.name u1) (Some [])) w1).
Proof.
  split; [split|].
  - destruct u1 as [i1 e1 n1 h1], u2 as [i2 e2 n2 h2]. intros H.
    assert (Some (VStr i1) = Some (VStr i2)) as Hi
      by exact (f_equal (fun d : dict => d !! "id") H).
    assert (Some (VStr e1) = Some (VStr e2)) as He
      by exact (f_equal (fun d : dict => d !! "email") H).
    assert (Some (VStr n1) = Some (VStr n2)) as Hn
      by exact (f_equal (fun d : dict => d !! "name") H).
    assert (Some (of_optional str_list h1) = Some (of_optional str_list h2))
      as Hh by exact (f_equal (fun d : dict => d !! "orderHistory") H).
    assert (h1 = h2) as ->.
    { destruct h1 as [l1|], h2 as [l2|]; cbn in Hh; try discriminate Hh;
        [|reflexivity].
      injection Hh as Hh. apply map_VStr_inj in Hh. congruence. }
    congruence.
  - intros ->. reflexivity.
  - intros H.
    assert (Some VNone = Some (VList [])) as Hh
      by exact (f_equal (fun d : dict => d !! "orderHistory") H).
    discriminate Hh.
Qed.

Lemma Restaurant_lookup_fixed (r : Restaurant.t) (w : World) :
  result (Restaurant.to_dict r w) !! "id" = Some (VStr (Restaurant.id r))
  /\ result (Restaurant.to_dict r w) !! "name" = Some (VStr (Restaurant.name r))
  /\ result (Restaurant.to_dict r w) !! "cuisine" =
       Some (VStr (Restaurant.cuisine r))
  /\ result (Restaurant.to_dict r w) !! "address" =
       Some (VStr (Restaurant.address r))
  /\ result (Restaurant.to_dict r w) !! "rating" =
       Some (VFloat (Restaurant.rating r))
  /\ result (Restaurant.to_dict r w) !! "deliveryFee" =
       Some (VFloat (Restaurant.deliveryFee r))
  /\ result (Restaurant.to_dict r w) !! "estimatedDeliveryTime" =
       Some (VInt (Restaurant.estimatedDeliveryTime r)).
Proof.
  destruct r as [i n c a ra df e [[|ch sn]|] [p|]]; repeat split; reflexivity.
Qed.

Lemma Restaurant_lookup_subname (r : Restaurant.t) (w : World) :
  result (Restaurant.to_dict r w) !! "subname" = VStr <$> emitted_subname r.
Proof. destruct r as [i n c a ra df e [[|ch sn]|] [p|]]; reflexivity. Qed.

Lemma Restaurant_lookup_coords (r : Restaurant.t) (w : World) :
  result (Restaurant.to_dict r w) !! "coords" =
  (fun p => VDict (py_dict [("latitude", VFloat (latitude p));
                            ("longitude", VFloat (longitude p))]))
    <$> Restaurant.coords r.
Proof. destruct r as [i n c a ra df e [[|ch sn]|] [p|]]; reflexivity. Qed.

(** The mapping of a restaurant, from what it stores. *)
Lemma Restaurant_to_dict_eq (r : Restaurant.t) (w : World) :
  result (Restaurant.to_dict r w) =
  let data := py_dict [
    ("id", VStr (Restaurant.id r));
    ("name", VStr (Restaurant.name r));
    ("cuisine", VStr (Restaurant.cuisine r));
    ("address", VStr (Restaurant.address r));
    ("rating", VFloat (Restaurant.rating r));
    ("deliveryFee", VFloat (Restaurant.deliveryFee r));
    ("estimatedDeliveryTime", VInt (Restaurant.estimatedDeliveryTime r))] in
  let data := match emitted_subname r with
              | Some s => <["subname" := VStr s]> data
              | None => data
              end in
  match Restaurant.coords r with
  | Some p => <["coords" := VDict (py_dict [("latitude", VFloat (latitude p));
                                            ("longitude", VFloat (longitude p))])]>
                data
  | None => data
  end.
Proof. destruct r as [i n c a ra df e [[|ch sn]|] [p|]]; reflexivity. Qed.

(** Two restaurants have the same mapping exactly when they agree on every
    field, an empty subname counting as an absent one: that distinction is
    the only thing the mapping loses. *)
Theorem Restaurant_to_dict_equal_iff (r1 r2 : Restaurant.t) (w1 w2 : World) :
  result (Restaurant.to_dict r1 w1) = result (Restaurant.to_dict r2 w2)
  <-> (Restaurant.id r1 = Restaurant.id r2
       /\ Restaurant.name r1 = Restaurant.name r2
       /\ Restaurant.cuisine r1 = Restaurant.cuisine r2
       /\ Restaurant.address r1 = Restaurant.address r2
       /\ Restaurant.rating r1 = Restaurant.rating r2
       /\ Restaurant.deliveryFee r1 = Restaurant.deliveryFee r2
       /\ Restaurant.estimatedDeliveryTime r1
          = Restaurant.estimatedDeliveryTime r2
       /\ emitted_subname r1 = emitted_subname r2
       /\ Restaurant.coords r1 = Restaurant.coords r2).
Proof.
  split.
  - intros H.
    destruct (Restaurant_lookup_fixed r1 w1) as (A1 & B1 & C1 & D1 & E1 & F1 & G1).
    destruct (Restaurant_lookup_fixed r2 w2) as (A2 & B2 & C2 & D2 & E2 & F2 & G2).
    pose proof (Restaurant_lookup_subname r1 w1) as S1.
    pose proof (Restaurant_lookup_subname r2 w2) as S2.
    pose proof (Restaurant_lookup_coords r1 w1) as K1.
    pose proof (Restaurant_lookup_coords r2 w2) as K2.
    rewrite H in A1, B1, C1, D1, E1, F1, G1, S1, K1.
    rewrite A2 in A1. rewrite B2 in B1. rewrite C2 in C1. rewrite D2 in D1.
    rewrite E2 in E1. rewrite F2 in F1. rewrite G2 in G1.
    rewrite S2 in S1. rewrite K2 in K1.
    repeat split; try congruence.
    + destruct (emitted_subname r1), (emitted_subname r2); cbn in S1; congruence.
    + destruct (Restaurant.coords r1) as [[la1 lo1]|],
               (Restaurant.coords r2) as [[la2 lo2]|];
        cbn [fmap option_fmap option_map latitude longitude] in K1;
        try discriminate K1; [|reflexivity].
      apply VDict_eq_inv in K1.
      assert (Some (VFloat la2) = Some (VFloat la1)) as Hla
        by exact (f_equal (fun d : dict => d !! "latitude") K1).
      assert (Some (VFloat lo2) = Some (VFloat lo1)) as Hlo
        by exact (f_equal (fun d : dict => d !! "longitude") K1).
      congruence.
  - intros (Hi & Hn & Hc & Ha & Hr & Hd & He & Hs & Hk).
    rewrite !Restaurant_to_dict_eq. cbv zeta.
    rewrite Hi, Hn, Hc, Ha, Hr, Hd, He, Hs, Hk. reflexivity.
Qed.

Lemma cons_eq_inv {A} (x y : A) (l l' : list A) :
  x :: l = y :: l' -> x = y /\ l = l'.
Proof. intros H. injection H as Hx Hl. split; assumption. Qed.

Lemma map_item_dict_inj (l1 l2 : list OrderItem.t) (w1 w2 : World) :
  map (fun i => VDict (result (OrderItem.to_dict i w1))) l1
  = map (fun i => VDict (result (OrderItem.to_dict i w2))) l2 ->
  l1 = l2.
Proof.
  revert l2. induction l1 as [|[a] l1 IH]; intros [|[b] l2] H;
    try discriminate H; [reflexivity|].
  cbn [map] in H. apply cons_eq_inv in H as [Hd H]. rewrite (IH _ H).
  assert (Some (VStr a) = Some (VStr b)) as E.
  { apply (f_equal Some) in Hd. apply VDict_eq_inv in Hd.
    exact (f_equal (fun d : dict => d !! "menuItemId") Hd). }
  congruence.
Qed.

Lemma of_optional_datetime_inj (d1 d2 : option datetime) :
  of_optional VDatetime d1 = of_optional VDatetime d2 -> d1 = d2.
Proof. destruct d1, d2; cbn; congruence. Qed.

(** Two orders have the same mapping exactly when they agree on every field
    other than [order_id]: the mapping keeps everything but the identifier,
    so orders that differ only in their identifier cannot be told apart. *)
Theorem Order_to_dict_equal_iff (o1 o2 : Order.t) (w1 w2 : World) :
  result (Order.to_dict o1 w1) = result (Order.to_dict o2 w2)
  <-> (Order.restaurant o1 = Order.restaurant o2
       /\ Order.user o1 = Order.user o2
       /\ Order.items o1 = Order.items o2
       /\ Order.delivery_address o1 = Order.delivery_address o2
       /\ Order.status o1 = Order.status o2
       /\ Order.created_at o1 = Order.created_at o2
       /\ Order.updated_at o1 = Order.updated_at o2).
Proof.
  rewrite (Order_to_dict_eq o1 w1), (Order_to_dict_eq o2 w2).
  unfold result; cbn [fst]. split.
  - intros H.
    assert (Some (VStr (Order.restaurant o1)) = Some (VStr (Order.restaurant o2)))
      as Hr by exact (f_equal (fun d : dict => d !! "restaurant") H).
    assert (Some (VStr (Order.user o1)) = Some (VStr (Order.user o2)))
      as Hu by exact (f_equal (fun d : dict => d !! "user") H).
    assert (Some (VList (map (fun i => VDict (OrderItem.to_dict i w1).1.1)
                             (Order.items o1)))
            = Some (VList (map (fun i => VDict (OrderItem.to_dict i w2).1.1)
                               (Order.items o2))))
      as Hi by exact (f_equal (fun d : dict => d !! "items") H).
    assert (Some (VStr (Order.delivery_address o1))
            = Some (VStr (Order.delivery_address o2)))
      as Ha by exact (f_equal (fun d : dict => d !! "deliveryAddress") H).
    assert (Some (VStr (Order.status o1)) = Some (VStr (Order.status o2)))
      as Hs by exact (f_equal (fun d : dict => d !! "status") H).
    assert (Some (of_optional VDatetime (Order.created_at o1))
            = Some (of_optional VDatetime (Order.created_at o2)))
      as Hc by exact (f_equal (fun d : dict => d !! "createdAt") H).
    assert (Some (of_optional VDatetime (Order.updated_at o1))
            = Some (of_optional VDatetime (Order.updated_at o2)))
      as Hp by exact (f_equal (fun d : dict => d !! "updatedAt") H).
    injection Hi as Hi. apply (map_item_dict_inj _ _ w1 w2) in Hi.
    injection Hc as Hc. apply of_optional_datetime_inj in Hc.
    injection Hp as Hp. apply of_optional_datetime_inj in Hp.
    injection Hr as Hr. injection Hu as Hu. injection Ha as Ha.
    injection Hs as Hs.
    split; [exact Hr|]. split; [exact Hu|]. split; [exact Hi|].
    split; [exact Ha|]. split; [exact Hs|]. split; [exact Hc | exact Hp].
  - intros (Hr & Hu & Hi & Ha & Hs & Hc & Hp).
    rewrite Hr, Hu, Hi, Ha, Hs, Hc, Hp. reflexivity.
Qed.

(** ** Construction followed by other calls *)

(** Running [__post_init__] again on a constructed order or user changes
    nothing and reads nothing: no new identifier, no new timestamp, the
    history kept. *)
Theorem post_init_settles :
  (forall r u its addr st oid ca ua (w w2 : World),
     Order.__post_init__ (Order.new r u its addr st oid ca ua w).1 w2
     = (tt, (Order.new r u its addr st oid ca ua w).1, w2))
  /\ (forall id email name oh (w w2 : World),
       User.__post_init__ (User.new id email name oh w).1 w2
       = (tt, (User.new id email name oh w).1, w2)).
Proof.
  split.
  - intros. rewrite Order_new_eq. cbv zeta. reflexivity.
  - intros. destruct oh as [|[l|]]; reflexivity.
Qed.

(** The mapping of a constructed order, whatever was passed: the status is
    the one passed, unchecked, or pending; [createdAt] and [updatedAt] hold a
    datetime, the one passed if there was one, and never [None]. That is due
    to construction alone: once [created_at] is set back to [None],
    [to_dict] stores [None]. *)
Theorem Order_new_then_to_dict
    (r u : string) (its : list OrderItem.t) (addr : string) (st : arg string)
    (oid : arg (option string)) (ca ua : arg (option datetime)) (w w2 : World) :
  result (Order.to_dict (Order.new r u its addr st oid ca ua w).1 w2) !! "status"
    = Some (VStr (arg_or "pending" st))
  /\ (exists c : datetime,
        result (Order.to_dict (Order.new r u its addr st oid ca ua w).1 w2)
          !! "createdAt" = Some (VDatetime c)
        /\ forall d, arg_or None ca = Some d -> c = d)
  /\ (exists p : datetime,
        result (Order.to_dict (Order.new r u its addr st oid ca ua w).1 w2)
          !! "updatedAt" = Some (VDatetime p)
        /\ forall d, arg_or None ua = Some d -> p = d)
  /\ result (Order.to_dict
               (Order.set_created_at None
                  (Order.new r u its addr st oid ca ua w).1) w2) !! "createdAt"
     = Some VNone.
Proof.
  rewrite Order_new_eq. cbv zeta. cbn [fst].
  rewrite !Order_to_dict_eq. unfold result; cbn [fst].
  split; [reflexivity|]. split; [|split; [|reflexivity]].
  - eexists. split; [reflexivity|]. intros d ->. reflexivity.
  - eexists. split; [reflexivity|]. intros d ->. reflexivity.
Qed.

(** When both timestamps are defaulted, [created_at] is read from the clock
    before [updated_at]: if the clock does not go back between the two
    readings, the order is created no later than it is updated, and both
    datetimes are in UTC. *)
Theorem Order_created_before_updated
    (r u : string) (its : list OrderItem.t) (addr : string) (st : arg string)
    (oid : arg (option string)) (ca ua : arg (option datetime)) (w : World) :
  absent ca = true -> absent ua = true ->
  clock w (clock_pos w) <= clock w (S (clock_pos w)) ->
  exists c p : datetime,
    Order.created_at (Order.new r u its addr st oid ca ua w).1 = Some c
    /\ Order.updated_at (Order.new r u its addr st oid ca ua w).1 = Some p
    /\ dt_instant c <= dt_instant p
    /\ dt_tzinfo c = Some timezone_utc
    /\ dt_tzinfo p = Some timezone_utc.
Proof.
  unfold absent. intros Hca Hua Hclock.
  rewrite Order_new_eq. cbv zeta.
  destruct (arg_or None ca); [discriminate Hca|].
  destruct (arg_or None ua); [discriminate Hua|].
  eexists _, _. split; [reflexivity|]. split; [reflexivity|].
  unfold uuid.uuid4, os_urandom, datetime_now.
  destruct (arg_or None oid); cbn [fst snd default dt_instant dt_tzinfo clock clock_pos];
    (split; [exact Hclock|]); split; reflexivity.
Qed.

Lemma Order_created_before_updated_witness :
  exists c p : datetime,
    Order.created_at
      (Order.new "r1" "u1" [] "123 Main St" Omitted Omitted Omitted Omitted
         sample_world).1 = Some c
    /\ Order.updated_at
         (Order.new "r1" "u1" [] "123 Main St" Omitted Omitted Omitted Omitted
            sample_world).1 = Some p
    /\ dt_instant c <= dt_instant p
    /\ dt_tzinfo c = Some timezone_utc
    /\ dt_tzinfo p = Some timezone_utc.
Proof.
  apply (Order_created_before_updated "r1" "u1" [] "123 Main St"
           Omitted Omitted Omitted Omitted sample_world).
  - reflexivity.
  - reflexivity.
  - vm_compute. discriminate.
Defined.


(** ** The identifier of an order, read back from its text *)

Lemma zeros_shift (k : nat) (acc : string) :
  uuid.zeros k +:+ String "0" acc = String "0" (uuid.zeros k +:+ acc).
Proof.
  induction k as [|k IH]; [reflexivity|].
  cbn [uuid.zeros]. cbv [append]. fold append. rewrite IH. reflexivity.
Qed.

Lemma fixed_hex_zero (k : nat) (acc : string) :
  fixed_hex k 0 acc = uuid.zeros k +:+ acc.
Proof.
  revert acc. induction k as [|k IH]; intros acc; [reflexivity|].
  cbn [fixed_hex]. change (0 / 16) with 0.
  change (uuid.hex_digit (0 mod 16)) with "0"%char.
  rewrite IH, zeros_shift. reflexivity.
Qed.

(** With enough fuel, the digits [hex_loop] produces are the fixed-width
    digits without their leading zeros. *)
Lemma hex_loop_fixed (fuel k : nat) (n : Z) (acc : string) :
  (1 <= k)%nat -> 0 <= n < 16 ^ Z.of_nat k -> n < 16 ^ Z.of_nat fuel ->
  fixed_hex k n acc =
  uuid.zeros (k + String.length acc
              - String.length (uuid.hex_loop fuel n acc)) +:+
  uuid.hex_loop fuel n acc.
Proof.
  revert k n acc. induction fuel as [|fuel IH]; intros k n acc Hk Hn Hfuel.
  - cbn in Hfuel. assert (n = 0) as -> by lia.
    cbn [uuid.hex_loop]. rewrite fixed_hex_zero. f_equal. f_equal. lia.
  - destruct k as [|k]; [lia|].
    assert (Hpow : forall m : nat, 16 ^ Z.of_nat (S m) = 16 * 16 ^ Z.of_nat m).
    { intros m. rewrite Nat2Z.inj_succ, Z.pow_succ_r by lia. reflexivity. }
    rewrite Hpow in Hn, Hfuel.
    assert (Hdiv : 0 <= n / 16 < 16 ^ Z.of_nat k).
    { split; [apply Z.div_pos; lia | apply Z.div_lt_upper_bound; lia]. }
    assert (Hdivf : n / 16 < 16 ^ Z.of_nat fuel)
      by (apply Z.div_lt_upper_bound; lia).
    cbn [fixed_hex uuid.hex_loop].
    destruct (Z.eqb_spec (n / 16) 0) as [Hq|Hq].
    + rewrite Hq, fixed_hex_zero. f_equal. f_equal. cbn [String.length]. lia.
    + destruct k as [|k]; [cbn in Hdiv; lia|].
      rewrite (IH (S k) (n / 16) _ ltac:(lia) Hdiv Hdivf).
      f_equal. f_equal. cbn [String.length]. lia.
Qed.

Lemma format_032x_fixed (n : Z) :
  0 <= n < 2 ^ 128 -> uuid.format_032x n = fixed_hex 32 n "".
Proof.
  intros Hn. unfold uuid.format_032x, uuid.format_x.
  rewrite (hex_loop_fixed (S (Z.to_nat (Z.log2 n))) 32 n "").
  - reflexivity.
  - lia.
  - change (16 ^ Z.of_nat 32) with (2 ^ 128). exact Hn.
  - destruct (Z.eq_dec n 0) as [->|Hne]; [reflexivity|].
    rewrite Nat2Z.inj_succ, Z2Nat.id by apply Z.log2_nonneg.
    pose proof (Z.log2_spec n ltac:(lia)) as [_ Hlt].
    eapply Z.lt_le_trans; [exact Hlt|].
    apply Z.pow_le_mono_l. pose proof (Z.log2_nonneg n). lia.
Qed.

Lemma hex_value_digit (d : Z) : 0 <= d < 16 -> hex_value (uuid.hex_digit d) = d.
Proof.
  intros Hd.
  assert (d = 0 \/ d = 1 \/ d = 2 \/ d = 3 \/ d = 4 \/ d = 5 \/ d = 6 \/ d = 7
          \/ d = 8 \/ d = 9 \/ d = 10 \/ d = 11 \/ d = 12 \/ d = 13 \/ d = 14
          \/ d = 15) as H by lia.
  repeat (destruct H as [->|H]; [reflexivity|]). subst d. reflexivity.
Qed.

Lemma hex_not_hyphen (c : ascii) :
  uuid.is_hex_lower c = true -> Ascii.eqb c "-" = false.
Proof.
  destruct c as [[] [] [] [] [] [] [] []]; intros H;
    first [reflexivity | discriminate H].
Qed.

(** Reading fixed-width digits back gives the number they were made from. *)
Lemma text_value_fixed (k : nat) (n a : Z) (acc : string) :
  0 <= n ->
  text_value a (fixed_hex k n acc)
  = text_value (a * 16 ^ Z.of_nat k + n mod 16 ^ Z.of_nat k) acc.
Proof.
  revert n a acc. induction k as [|k IH]; intros n a acc Hn.
  - cbn [fixed_hex]. change (16 ^ Z.of_nat 0) with 1.
    rewrite Z.mod_1_r. f_equal. lia.
  - cbn [fixed_hex]. rewrite IH by (apply Z.div_pos; lia).
    cbn [text_value].
    rewrite (hex_not_hyphen _ (hex_digit_is_hex (n mod 16))).
    rewrite hex_value_digit by (apply Z.mod_pos_bound; lia).
    f_equal.
    rewrite Nat2Z.inj_succ, Z.pow_succ_r by lia.
    rewrite (Z.rem_mul_r n 16 (16 ^ Z.of_nat k)) by lia. lia.
Qed.

Lemma text_value_digit (a : Z) (c : ascii) (s : string) :
  uuid.is_hex_lower c = true ->
  text_value a (String c s) = text_value (a * 16 + hex_value c) s.
Proof. intros H. cbn [text_value]. rewrite (hex_not_hyphen c H). reflexivity. Qed.

Lemma text_value_hyphen (a : Z) (s : string) :
  text_value a (String "-" s) = text_value a s.
Proof. reflexivity. Qed.

(** Grouping thirty-two digits with hyphens does not change what they
    denote. *)
Lemma text_value_grouping (hex : string) :
  String.length hex = 32%nat -> uuid.all_hex hex = true ->
  text_value 0
    (uuid.slice 0 8 hex +:+ "-" +:+ uuid.slice 8 12 hex +:+ "-" +:+
     uuid.slice 12 16 hex +:+ "-" +:+ uuid.slice 16 20 hex +:+ "-" +:+
     uuid.slice_from 20 hex)
  = text_value 0 hex.
Proof.
  intros Hlen Hall.
  do 32 (destruct hex as [|? hex]; [discriminate Hlen|]).
  destruct hex; [|discriminate Hlen]. clear Hlen.
  cbn [uuid.all_hex] in Hall.
  repeat (apply andb_true_iff in Hall as [? Hall]).
  unfold uuid.slice, uuid.slice_from.
  cbn [substring String.length Nat.sub]. cbv [append].
  repeat first [ rewrite text_value_hyphen
               | rewrite text_value_digit by assumption ].
  reflexivity.
Qed.

(** The text of an identifier denotes its 128-bit value. *)
Lemma text_value_UUID_str (u : uuid.UUID) :
  0 <= uuid.int u < 2 ^ 128 -> text_value 0 (uuid.UUID_str u) = uuid.int u.
Proof.
  intros Hu. unfold uuid.UUID_str. cbv zeta.
  rewrite text_value_grouping
    by (apply format_032x_length, Hu || apply format_032x_all_hex).
  rewrite (format_032x_fixed _ Hu), text_value_fixed by lia.
  change (16 ^ Z.of_nat 32) with (2 ^ 128).
  rewrite Z.mod_small by exact Hu. reflexivity.
Qed.

Lemma UUID_str_inj (u1 u2 : uuid.UUID) :
  0 <= uuid.int u1 < 2 ^ 128 -> 0 <= uuid.int u2 < 2 ^ 128 ->
  uuid.UUID_str u1 = uuid.UUID_str u2 -> u1 = u2.
Proof.
  intros H1 H2 E.
  pose proof (text_value_UUID_str u1 H1) as V1.
  pose proof (text_value_UUID_str u2 H2) as V2.
  rewrite E, V2 in V1. destruct u1, u2; cbn in V1. congruence.
Qed.

(** ** The digits of a fresh identifier *)

Lemma get_fixed_hex_acc (k j : nat) (n : Z) (acc : string) :
  String.get (k + j) (fixed_hex k n acc) = String.get j acc.
Proof.
  revert j n acc. induction k as [|k IH]; intros j n acc; [reflexivity|].
  cbn [fixed_hex]. replace (S k + j)%nat with (k + S j)%nat by lia.
  rewrite IH. reflexivity.
Qed.

(** The digit at position [i] of the fixed-width digits of [n]. *)
Lemma get_fixed_hex (k i : nat) (n : Z) (acc : string) :
  (i < k)%nat ->
  String.get i (fixed_hex k n acc)
  = Some (uuid.hex_digit ((n / 16 ^ Z.of_nat (k - 1 - i)) mod 16)).
Proof.
  revert n acc. induction k as [|k IH]; intros n acc Hi; [lia|].
  cbn [fixed_hex].
  destruct (Nat.eq_dec i k) as [->|Hne].
  - replace k with (k + 0)%nat at 1 by lia. rewrite get_fixed_hex_acc.
    replace (S k - 1 - k)%nat with 0%nat by lia.
    change (16 ^ Z.of_nat 0) with 1. rewrite Z.div_1_r. reflexivity.
  - rewrite IH by lia. f_equal. f_equal. f_equal.
    replace (S k - 1 - i)%nat with (S (k - 1 - i)) by lia.
    rewrite Nat2Z.inj_succ, Z.pow_succ_r by lia.
    rewrite Z.div_div by lia. reflexivity.
Qed.

Lemma get_grouping (hex : string) :
  String.length hex = 32%nat ->
  String.get 14
    (uuid.slice 0 8 hex +:+ "-" +:+ uuid.slice 8 12 hex +:+ "-" +:+
     uuid.slice 12 16 hex +:+ "-" +:+ uuid.slice 16 20 hex +:+ "-" +:+
     uuid.slice_from 20 hex) = String.get 12 hex
  /\ String.get 19
    (uuid.slice 0 8 hex +:+ "-" +:+ uuid.slice 8 12 hex +:+ "-" +:+
     uuid.slice 12 16 hex +:+ "-" +:+ uuid.slice 16 20 hex +:+ "-" +:+
     uuid.slice_from 20 hex) = String.get 16 hex.
Proof.
  intros Hlen.
  do 32 (destruct hex as [|? hex]; [discriminate Hlen|]).
  destruct hex; [|discriminate Hlen].
  split; reflexivity.
Qed.

(** Bits 76 to 79 of a version-4 identifier hold the number 4, and bits 62
    and 63 hold the RFC 4122 variant. *)
Lemma uuid4_version_bits (w : World) :
  (uuid.int (uuid.uuid4 w).1 / 16 ^ 19) mod 16 = 4.
Proof.
  unfold uuid.uuid4, os_urandom; cbn [fst uuid.UUID_init uuid.int].
  set (x := uuid.int_from_bytes _). clearbody x.
  change (16 ^ 19) with (2 ^ 76). change 16 with (2 ^ 4).
  apply Z.bits_inj'. intros i Hi.
  destruct (Z.lt_ge_cases i 4) as [Hlt|Hge].
  - rewrite Z.mod_pow2_bits_low by lia.
    rewrite Z.div_pow2_bits by lia.
    assert (i = 0 \/ i = 1 \/ i = 2 \/ i = 3) as [-> | [-> | [-> | ->]]] by lia;
      cbn [Z.add Pos.add Pos.succ];
      rewrite Z.lor_spec, Z.land_spec;
      match goal with
      | |- (_ && Z.testbit ?c ?k) || Z.testbit ?d ?k = _ =>
          replace (Z.testbit c k) with false by (vm_compute; reflexivity);
          replace (Z.testbit d k) with (Z.testbit 4 (k - 76))
            by (vm_compute; reflexivity)
      end;
      rewrite andb_false_r; reflexivity.
  - rewrite Z.mod_pow2_bits_high by lia.
    symmetry. apply (bits_above_bound 4 4 i); [vm_compute; intuition discriminate | lia].
Qed.

Lemma uuid4_variant_bits (w : World) :
  8 <= (uuid.int (uuid.uuid4 w).1 / 16 ^ 15) mod 16 < 12.
Proof.
  unfold uuid.uuid4, os_urandom; cbn [fst uuid.UUID_init uuid.int].
  set (x := uuid.int_from_bytes _). clearbody x.
  change (16 ^ 15) with (2 ^ 60). change 16 with (2 ^ 4).
  set (v := (_ / 2 ^ 60) mod 2 ^ 4).
  assert (H3 : Z.testbit v 3 = true).
  { unfold v. rewrite Z.mod_pow2_bits_low by lia.
    rewrite Z.div_pow2_bits by lia. cbn [Z.add Pos.add Pos.succ].
    rewrite Z.lor_spec, Z.land_spec, Z.lor_spec.
    replace (Z.testbit (Z.shiftl 0x8000 48) 63) with true
      by (vm_compute; reflexivity).
    replace (Z.testbit (Z.lnot (Z.shiftl 0xf000 64)) 63) with true
      by (vm_compute; reflexivity).
    rewrite orb_true_r. reflexivity. }
  assert (H2 : Z.testbit v 2 = false).
  { unfold v. rewrite Z.mod_pow2_bits_low by lia.
    rewrite Z.div_pow2_bits by lia. cbn [Z.add Pos.add Pos.succ].
    rewrite Z.lor_spec, Z.land_spec, Z.lor_spec, Z.land_spec.
    replace (Z.testbit (Z.shiftl 0x8000 48) 62) with false
      by (vm_compute; reflexivity).
    replace (Z.testbit (Z.lnot (Z.shiftl 0xc000 48)) 62) with false
      by (vm_compute; reflexivity).
    replace (Z.testbit (Z.shiftl 4 76) 62) with false
      by (vm_compute; reflexivity).
    rewrite andb_false_r. reflexivity. }
  assert (Hv : 0 <= v < 16) by (apply Z.mod_pos_bound; reflexivity).
  clearbody v.
  assert (v = 0 \/ v = 1 \/ v = 2 \/ v = 3 \/ v = 4 \/ v = 5 \/ v = 6 \/ v = 7
          \/ v = 8 \/ v = 9 \/ v = 10 \/ v = 11 \/ v = 12 \/ v = 13 \/ v = 14
          \/ v = 15) as H by lia.
  repeat (destruct H as [->|H];
          [first [discriminate H3 | discriminate H2 | lia]|]).
  subst v. discriminate H2.
Qed.

Lemma Order_new_fresh_id r u its addr st ca ua (w : World) :
  Order.order_id (Order.new r u its addr st Omitted ca ua w).1
  = Some (uuid.UUID_str (uuid.uuid4 w).1).
Proof. rewrite Order_new_eq. reflexivity. Qed.

(** A defaulted [order_id] can be read back: its text denotes the 128-bit
    value that was drawn, so two constructions get the same [order_id]
    exactly when they drew the same value. *)
Theorem Order_id_text_injective
    (r1 u1 : string) (its1 : list OrderItem.t) (addr1 : string)
    (st1 : arg string) (ca1 ua1 : arg (option datetime)) (w1 : World)
    (r2 u2 : string) (its2 : list OrderItem.t) (addr2 : string)
    (st2 : arg string) (ca2 ua2 : arg (option datetime)) (w2 : World) :
  (exists t : string,
     Order.order_id (Order.new r1 u1 its1 addr1 st1 Omitted ca1 ua1 w1).1
     = Some t
     /\ text_value 0 t = uuid.int (uuid.uuid4 w1).1)
  /\ (Order.order_id (Order.new r1 u1 its1 addr1 st1 Omitted ca1 ua1 w1).1
      = Order.order_id (Order.new r2 u2 its2 addr2 st2 Omitted ca2 ua2 w2).1
      <-> (uuid.uuid4 w1).1 = (uuid.uuid4 w2).1).
Proof.
  rewrite !Order_new_fresh_id. split.
  - eexists. split; [reflexivity|].
    apply text_value_UUID_str, uuid4_int_bound.
  - split.
    + intros H. injection H as H.
      apply UUID_str_inj; [apply uuid4_int_bound | apply uuid4_int_bound | exact H].
    + intros ->. reflexivity.
Qed.

(** Two orders constructed one after the other draw their identifiers from
    consecutive blocks of sixteen bytes of the random source: the second
    [order_id] is made from the second block, and the two are equal exactly
    when the two blocks give the same version-4 value. *)
Theorem Order_ids_in_sequence
    (r1 u1 : string) (its1 : list OrderItem.t) (addr1 : string)
    (st1 : arg string) (ca1 ua1 : arg (option datetime))
    (r2 u2 : string) (its2 : list OrderItem.t) (addr2 : string)
    (st2 : arg string) (ca2 ua2 : arg (option datetime)) (w : World) :
  Order.order_id
    (Order.new r2 u2 its2 addr2 st2 Omitted ca2 ua2
       (Order.new r1 u1 its1 addr1 st1 Omitted ca1 ua1 w).2).1
  = Some (uuid.UUID_str
            (uuid.UUID_init
               (map (entropy w) (seq (entropy_pos w + 16) 16)) (Some 4)))
  /\ (Order.order_id (Order.new r1 u1 its1 addr1 st1 Omitted ca1 ua1 w).1
      = Order.order_id
          (Order.new r2 u2 its2 addr2 st2 Omitted ca2 ua2
             (Order.new r1 u1 its1 addr1 st1 Omitted ca1 ua1 w).2).1
      <-> uuid.UUID_init (map (entropy w) (seq (entropy_pos w) 16)) (Some 4)
          = uuid.UUID_init
              (map (entropy w) (seq (entropy_pos w + 16) 16)) (Some 4)).
Proof.
  rewrite !Order_new_fresh_id.
  assert (E : (uuid.uuid4 (Order.new r1 u1 its1 addr1 st1 Omitted ca1 ua1 w).2).1
              = uuid.UUID_init
                  (map (entropy w) (seq (entropy_pos w + 16) 16)) (Some 4)).
  { rewrite Order_new_eq. cbv zeta. cbn [arg_or snd].
    destruct (arg_or None ca1), (arg_or None ua1); reflexivity. }
  pose proof (uuid4_int_bound (Order.new r1 u1 its1 addr1 st1 Omitted ca1 ua1 w).2)
    as B2.
  pose proof (uuid4_int_bound w) as B1.
  rewrite E in *.
  change (uuid.uuid4 w).1
    with (uuid.UUID_init (map (entropy w) (seq (entropy_pos w) 16)) (Some 4))
    in *.
  split; [reflexivity|]. split.
  - intros H. injection H as H. apply UUID_str_inj; assumption.
  - intros ->. reflexivity.
Qed.

(** A defaulted [order_id] carries the marks of a version-4 identifier: the
    character at index 14 is the digit 4, and the character at index 19 is
    one of 8, 9, a and b. *)
Theorem Order_id_version_and_variant
    (r u : string) (its : list OrderItem.t) (addr : string) (st : arg string)
    (ca ua : arg (option datetime)) (w : World) :
  exists t : string,
    Order.order_id (Order.new r u its addr st Omitted ca ua w).1 = Some t
    /\ String.get 14 t = Some "4"%char
    /\ (String.get 19 t = Some "8"%char \/ String.get 19 t = Some "9"%char
        \/ String.get 19 t = Some "a"%char \/ String.get 19 t = Some "b"%char).
Proof.
  rewrite Order_new_fresh_id. eexists. split; [reflexivity|].
  pose proof (uuid4_int_bound w) as B.
  pose proof (uuid4_version_bits w) as V.
  pose proof (uuid4_variant_bits w) as R.
  set (u4 := (uuid.uuid4 w).1) in *. clearbody u4.
  unfold uuid.UUID_str. cbv zeta.
  destruct (get_grouping (uuid.format_032x (uuid.int u4))
              (format_032x_length _ B)) as [G14 G19].
  rewrite G14, G19, (format_032x_fixed _ B).
  rewrite !get_fixed_hex by lia.
  change (Z.of_nat (32 - 1 - 12)) with 19.
  change (Z.of_nat (32 - 1 - 16)) with 15.
  rewrite V. split; [reflexivity|].
  set (v := (uuid.int u4 / 16 ^ 15) mod 16) in *. clearbody v.
  assert (v = 8 \/ v = 9 \/ v = 10 \/ v = 11) as [-> | [-> | [-> | ->]]] by lia;
    cbn; auto.
Qed.
